(** * getdemos-js: the authenticated HTTP client of [src/getdemos.ts]

    A shallow embedding of the [GetDemos] class: the token storage, the two
    interceptors registered in the constructor, the request pipeline they are
    composed into, [doLogin], [checkUpdate] and the resource methods.

    Asynchronous code is written in a small monad [Async]: a computation takes
    the world (token store and console) and returns a settled promise together
    with the world it leaves behind.  The HTTP adapter and the
    [compare-versions] function are libraries the class receives from outside;
    they are parameters of the development. *)

From Stdlib Require Import ZArith Ascii String.
From stdpp Require Import gmap strings pretty.

Local Open Scope Z_scope.
Local Open Scope string_scope.

(** ** Data model *)

(** [interface ApiMessage<T>].  JSON decoding does not enforce the interface,
    so the [ok] flag may be missing at run time: [None] is the absent flag
    ([undefined]). *)
Module ApiMessage.
Record t (T : Type) : Type := mk
  { ok : option bool; code : Z; msg : string; data : T }.
Arguments mk {T}.
Arguments ok {T}.
Arguments code {T}.
Arguments msg {T}.
Arguments data {T}.
End ApiMessage.

(** The truth value JavaScript gives [response.data.ok] in a condition. *)
Definition truthy (flag : option bool) : bool :=
  match flag with
  | Some b => b
  | None => false
  end.

(** The response the transport hands to the interceptors: the status line and
    the decoded body. *)
Module AxiosResponse.
Record t (T : Type) : Type := mk
  { status : Z; statusText : string; data : ApiMessage.t T }.
Arguments mk {T}.
Arguments status {T}.
Arguments statusText {T}.
Arguments data {T}.
End AxiosResponse.

Inductive Method : Type := GET | POST | PUT | DELETE.

(** The part of [AxiosRequestConfig] the class touches: target, verb, headers
    and request body. *)
Module AxiosRequestConfig.
Record t (D : Type) : Type := mk
  { url : string; method : Method; headers : gmap string string;
    data : option D }.
Arguments mk {D}.
Arguments url {D}.
Arguments method {D}.
Arguments headers {D}.
Arguments data {D}.
End AxiosRequestConfig.

(** [configs.headers.Authorization = value]. *)
Definition setAuthorization {D} (value : string)
    (configs : AxiosRequestConfig.t D) : AxiosRequestConfig.t D :=
  AxiosRequestConfig.mk
    (AxiosRequestConfig.url configs)
    (AxiosRequestConfig.method configs)
    (<["Authorization" := value]> (AxiosRequestConfig.headers configs))
    (AxiosRequestConfig.data configs).

(** The values the class passes to [Promise.reject], or lets escape as
    exceptions. *)
Inductive JsValue (T : Type) : Type :=
| JUndefined
| JNull
| JString (s : string)
| JTypeError
    (* the engine's error for a property read on [undefined] or [null] *)
| JError (name message : string) (response : option (AxiosResponse.t T))
    (* an [Error] object; the transport's errors carry a [response] field *)
| JResponse (r : AxiosResponse.t T)
| JFailure (msg : JsValue T).
    (* the object literal [{ ok: false, msg }] *)
Arguments JUndefined {T}.
Arguments JNull {T}.
Arguments JString {T}.
Arguments JTypeError {T}.
Arguments JError {T}.
Arguments JResponse {T}.
Arguments JFailure {T}.

(** A settled promise, or the completion of a synchronous call that may
    throw. *)
Inductive Settled (T A : Type) : Type :=
| Fulfilled (a : A)
| Rejected (e : JsValue T).
Arguments Fulfilled {T A}.
Arguments Rejected {T A}.

(** The property read [error.response]. *)
Definition getResponse {T} (error : JsValue T) : Settled T (JsValue T) :=
  match error with
  | JUndefined | JNull => Rejected JTypeError
  | JError _ _ (Some r) => Fulfilled (JResponse r)
  | JError _ _ None => Fulfilled JUndefined
  | JString _ | JTypeError | JResponse _ | JFailure _ => Fulfilled JUndefined
  end.

(** ** Token storage *)

Definition GETDEMOS_TOKEN : string := "getdemos-token".

(** The shape of [opts.storage]: an object with asynchronous [get] and [set]
    over a state [S] of its own; [get] reads the state, [set] replaces it, and
    either may reject. *)
Module Storage.
Record t (T S : Type) : Type := mk
  { get : S -> Settled T (option string);
    set : string -> S -> Settled T unit * S }.
Arguments mk {T S}.
Arguments get {T S}.
Arguments set {T S}.
End Storage.

(** [class DefaultStorage], over the browser's [localStorage]: [getItem]
    answers [null] for a missing key, [setItem] overwrites. *)
Definition DefaultStorage {T} : Storage.t T (gmap string string) :=
  Storage.mk
    (fun localStorage => Fulfilled (localStorage !! GETDEMOS_TOKEN))
    (fun token localStorage =>
       (Fulfilled tt, <[GETDEMOS_TOKEN := token]> localStorage)).

(** ** The world and the [Async] monad *)

Inductive Logged (D T : Type) : Type :=
| LogConfig (configs : AxiosRequestConfig.t D)
| LogResponse (response : AxiosResponse.t T)
| LogValue (v : JsValue T).
Arguments LogConfig {D T}.
Arguments LogResponse {D T}.
Arguments LogValue {D T}.

Record World (D T S : Type) : Type := mkWorld
  { store : S; console : list (string * Logged D T) }.
Arguments mkWorld {D T S}.
Arguments store {D T S}.
Arguments console {D T S}.

Definition Async (D T S A : Type) : Type :=
  World D T S -> Settled T A * World D T S.

Section AsyncMonad.
Context {D T S : Type}.

Definition resolve {A} (a : A) : Async D T S A := fun w => (Fulfilled a, w).

Definition reject {A} (e : JsValue T) : Async D T S A :=
  fun w => (Rejected e, w).

(** [const x = await p; k x]: a rejection of [p] leaves the function. *)
Definition await {A B} (p : Async D T S A) (k : A -> Async D T S B)
    : Async D T S B :=
  fun w =>
    match p w with
    | (Fulfilled a, w') => k a w'
    | (Rejected e, w') => (Rejected e, w')
    end.

(** [p.then(onFulfilled, onRejected)]; a missing [onRejected] passes the
    rejection on. *)
Definition then_ {A B} (p : Async D T S A)
    (onFulfilled : A -> Async D T S B)
    (onRejected : option (JsValue T -> Async D T S B)) : Async D T S B :=
  fun w =>
    match p w with
    | (Fulfilled a, w') => onFulfilled a w'
    | (Rejected e, w') =>
        match onRejected with
        | Some handler => handler e w'
        | None => (Rejected e, w')
        end
    end.

(** A synchronous call that returns or throws, inside an async function. *)
Definition settle {A} (c : Settled T A) : Async D T S A := fun w => (c, w).

(** [console.log(tag, what)]. *)
Definition console_log (tag : string) (what : Logged D T)
    : Async D T S unit :=
  fun w => (Fulfilled tt, mkWorld (store w) (console w ++ [(tag, what)])).

(** The storage operations, run on the store of the world. *)
Definition readStore {A} (op : S -> Settled T A) : Async D T S A :=
  fun w => (op (store w), w).

Definition writeStore {A} (op : S -> Settled T A * S) : Async D T S A :=
  fun w => let '(r, s') := op (store w) in (r, mkWorld s' (console w)).
End AsyncMonad.

Notation "'const' x '<~' p ;; k" := (await p (fun x => k))
  (at level 10, x name, p at level 99, k at level 200).
Notation "'run' p ;; k" := (await p (fun _ => k))
  (at level 10, p at level 99, k at level 200).

(** ** The client *)

(** What the constructor keeps of [opts]: the debug flag, the storage (the
    caller passes [DefaultStorage] where the source falls back to
    [new DefaultStorage()]), the default headers of [opts.axiosConfigs], and
    the dispatch behind [axios.create].  [adapter] stands for all axios does
    between the two interceptors: it sends the request and either resolves
    with the response or rejects with an error (no answer, or a status that
    the configured [validateStatus] turns down), which may carry the
    response. *)
Record GetDemos (D T S : Type) : Type := mkGetDemos
  { debug : bool;
    storage : Storage.t T S;
    axiosConfigs : gmap string string;
    adapter : AxiosRequestConfig.t D -> Settled T (AxiosResponse.t T) }.
Arguments mkGetDemos {D T S}.
Arguments debug {D T S}.
Arguments storage {D T S}.
Arguments axiosConfigs {D T S}.
Arguments adapter {D T S}.

Definition SERVER_INTERNAL_ERROR : string := "服务器内部错误".

Section Client.
Context {D T S : Type}.
Variable this : GetDemos D T S.

(** [opts.debug && console.log(tag, what)]. *)
Definition debug_log (tag : string) (what : Logged D T) : Async D T S unit :=
  if debug this then console_log tag what else resolve tt.

(** The world after [opts.debug && console.log(tag, what)]. *)
Definition logged (tag : string) (what : Logged D T) (w : World D T S)
    : World D T S :=
  snd (debug_log tag what w).

(** The request as it leaves the interceptor when the store answered
    [token]. *)
Definition prepared (token : option string) (configs : AxiosRequestConfig.t D)
    : AxiosRequestConfig.t D :=
  match token with
  | Some token => setAuthorization ("Bearer " ++ token) configs
  | None => configs
  end.

(** The request interceptor, lines 72-79. *)
Definition requestFulfilled (configs : AxiosRequestConfig.t D)
    : Async D T S (AxiosRequestConfig.t D) :=
  const token <~ readStore (Storage.get (storage this)) ;;
  let configs :=
    match token with
    | Some token => setAuthorization ("Bearer " ++ token) configs
    | None => configs
    end in
  run debug_log "[request] " (LogConfig configs) ;;
  resolve configs.

(** Its error handler, lines 80-87. *)
Definition requestRejected (error : JsValue T)
    : Async D T S (AxiosRequestConfig.t D) :=
  run debug_log "[request:error] " (LogValue error) ;;
  reject (JFailure error).

(** The response interceptor, lines 91-105. *)
Definition responseFulfilled (response : AxiosResponse.t T)
    : Async D T S (AxiosResponse.t T) :=
  run debug_log "[response] " (LogResponse response) ;;
  if (AxiosResponse.status response =? 500)%Z then
    reject (JFailure (JString SERVER_INTERNAL_ERROR))
  else if truthy (ApiMessage.ok (AxiosResponse.data response)) then
    resolve response
  else
    reject (JResponse response).

(** What [Promise.reject(error.response)] rejects with. *)
Definition responseOf (error : JsValue T) : JsValue T :=
  match getResponse error with
  | Fulfilled response => response
  | Rejected thrown => thrown
  end.

(** Its error handler, lines 106-110. *)
Definition responseRejected (error : JsValue T)
    : Async D T S (AxiosResponse.t T) :=
  run debug_log "[responnse:error] " (LogValue error) ;;
  const response <~ settle (getResponse error) ;;
  reject response.

(** The adapter sends the prepared request. *)
Definition dispatchRequest (configs : AxiosRequestConfig.t D)
    : Async D T S (AxiosResponse.t T) :=
  settle (adapter this configs).

(** [client.request]: axios starts from the resolved config and chains, with
    [then], the request interceptor, the dispatch (which has no rejection
    handler) and the response interceptor. *)
Definition request (config : AxiosRequestConfig.t D)
    : Async D T S (AxiosResponse.t T) :=
  then_
    (then_
       (then_ (resolve config) requestFulfilled (Some requestRejected))
       dispatchRequest None)
    responseFulfilled (Some responseRejected).

Definition client_get (url : string) : Async D T S (AxiosResponse.t T) :=
  request (AxiosRequestConfig.mk url GET (axiosConfigs this) None).

Definition client_post (url : string) (payload : D)
    : Async D T S (AxiosResponse.t T) :=
  request (AxiosRequestConfig.mk url POST (axiosConfigs this) (Some payload)).
End Client.

(** [doLogin], lines 118-124; the body of the answer is the token string. *)
Definition doLogin {LoginModel S} (this : GetDemos LoginModel string S)
    (payload : LoginModel) : Async LoginModel string S (AxiosResponse.t string) :=
  const res <~ client_post this "/api/auth" payload ;;
  if truthy (ApiMessage.ok (AxiosResponse.data res)) then
    run writeStore (Storage.set (storage this)
                     (ApiMessage.data (AxiosResponse.data res))) ;;
    resolve res
  else
    resolve res.

(** [interface CheckUpdateResult]: both fields are optional, the function
    starts from the empty object. *)
Record CheckUpdateResult (AppRelease : Type) : Type := mkCheckUpdateResult
  { latest : option bool; release : option AppRelease }.
Arguments mkCheckUpdateResult {AppRelease}.
Arguments latest {AppRelease}.
Arguments release {AppRelease}.

Section Releases.
Context {D AppRelease S : Type}.
(** Of [interface AppRelease] the class reads the [version] field only. *)
Variable version : AppRelease -> string.
(** [compareVersions] of the [compare-versions] package: it returns a number
    or throws. *)
Variable compareVersions : string -> string -> Settled AppRelease Z.
Variable this : GetDemos D AppRelease S.

(** [getAppLatestRelease], lines 146-150; the argument is the text
    [appQueryParams.toString()] yields. *)
Definition getAppLatestRelease (appQueryParams : string)
    : Async D AppRelease S (AxiosResponse.t AppRelease) :=
  client_get this ("/api/apps/releases/latest" ++ appQueryParams).

(** [checkUpdate], lines 199-209.  The call passes the literal [{}], whose
    [toString()] is that of a plain object. *)
Definition checkUpdate (versionName : string) (versionCode : option string)
    : Async D AppRelease S (CheckUpdateResult AppRelease) :=
  const latestRelease <~ getAppLatestRelease "[object Object]" ;;
  const order <~
    settle (compareVersions
              (version (ApiMessage.data (AxiosResponse.data latestRelease)))
              versionName) ;;
  if (order =? 1)%Z then
    resolve (mkCheckUpdateResult (Some false)
               (Some (ApiMessage.data (AxiosResponse.data latestRelease))))
  else
    resolve (mkCheckUpdateResult (Some true) None).
End Releases.

(** ** The resource methods

    Lines 130-192 and 211-233.  Each builds a URL and hands it to the client.
    Where the source splices a value into the URL ([payload.toString()],
    [appQueryParams.toString()], a numeric [id]), the argument here is the
    text JavaScript puts there. *)

Section Resources.
Context {D T S : Type}.
Variable this : GetDemos D T S.

(** [client.put] and [client.delete], as [client_get] and [client_post]. *)
Definition client_put (url : string) (payload : D)
    : Async D T S (AxiosResponse.t T) :=
  request this (AxiosRequestConfig.mk url PUT (axiosConfigs this) (Some payload)).

Definition client_delete (url : string) : Async D T S (AxiosResponse.t T) :=
  request this (AxiosRequestConfig.mk url DELETE (axiosConfigs this) None).

Definition getAllApps (payload : string) : Async D T S (AxiosResponse.t T) :=
  client_get this ("/api/apps?" ++ payload).

Definition getAppInfo (appQueryParams : string)
    : Async D T S (AxiosResponse.t T) :=
  client_get this ("/api/apps/info?id=" ++ appQueryParams).

Definition getAllAppReleases (appQueryParams : string)
    : Async D T S (AxiosResponse.t T) :=
  client_get this ("/api/apps/releases?id=" ++ appQueryParams).

Definition releaseNewVersion (payload : D) : Async D T S (AxiosResponse.t T) :=
  client_post this "/api/apps/releases" payload.

Definition getInvitation (appId : string) : Async D T S (AxiosResponse.t T) :=
  client_get this ("/api/apps/invitation?appId=" ++ appId).

(** [confirmInvitation] awaits the answer and returns nothing. *)
Definition confirmInvitation (payload : D) : Async D T S unit :=
  run client_post this "/api/apps/invitation" payload ;;
  resolve tt.

Definition createApp (payload : D) : Async D T S (AxiosResponse.t T) :=
  client_post this "/api/apps" payload.

Definition getArticle (id : string) : Async D T S (AxiosResponse.t T) :=
  client_get this ("/api/articles/" ++ id).

Definition getArticles (query : string) : Async D T S (AxiosResponse.t T) :=
  client_get this ("/api/articles?" ++ query).

Definition createArticle (article : D) : Async D T S (AxiosResponse.t T) :=
  client_post this "/api/articles" article.

Definition updateArticle (id : string) (article : D)
    : Async D T S (AxiosResponse.t T) :=
  client_put ("/api/articles?id=" ++ id) article.

Definition removeArticleById (id : string) : Async D T S (AxiosResponse.t T) :=
  client_delete ("/api/articles/" ++ id).

Definition getTags : Async D T S (AxiosResponse.t T) :=
  client_get this "/api/tags".
End Resources.

(** The request [checkUpdate] sends, before the interceptor. *)
Definition latestReleaseRequest {D T S} (this : GetDemos D T S)
    : AxiosRequestConfig.t D :=
  AxiosRequestConfig.mk "/api/apps/releases/latest[object Object]" GET
    (axiosConfigs this) None.

(** The client with another dispatch behind it. *)
Definition withAdapter {D T S} (this : GetDemos D T S)
    (adapter' : AxiosRequestConfig.t D -> Settled T (AxiosResponse.t T))
    : GetDemos D T S :=
  mkGetDemos (debug this) (storage this) (axiosConfigs this) adapter'.

(** ** A comparison to run the class on concrete versions

    The class is verified for any [compareVersions].  [strictCompare] is a
    sample argument for it, after the [compare-versions] package on versions
    without a pre-release or build suffix, which it does not cover and
    refuses.  A version is an optional leading [v] and one to four components
    between dots: the first a number, the others a number or one of the
    wildcards [x] and [*].  On any other string the comparison throws an
    [Error] that quotes the string, the first argument being looked at first.
    Components are compared as numbers from the left, a missing one counting
    as zero; a wildcard is no number and decides nothing. *)

Fixpoint parseDigits (s : string) (acc : Z) : option Z :=
  match s with
  | EmptyString => Some acc
  | String c rest =>
      let d := (Z.of_nat (Ascii.nat_of_ascii c) - 48)%Z in
      if ((0 <=? d) && (d <=? 9))%Z then parseDigits rest (acc * 10 + d)%Z
      else None
  end.

Definition parseComponent (s : string) : option Z :=
  match s with
  | EmptyString => None
  | _ => parseDigits s 0
  end.

(** The components between the dots, [cur] being the one under way (kept in
    reverse). *)
Fixpoint splitDots (s : string) (cur : string) : list string :=
  match s with
  | EmptyString => [String.rev cur]
  | String c rest =>
      if Ascii.eqb c "."%char then String.rev cur :: splitDots rest EmptyString
      else splitDots rest (String c cur)
  end.

(** A dotted numeric version: all components as numbers, or [None] when one
    of them is not a number. *)
Definition parseVersion (s : string) : option (list Z) :=
  mapM parseComponent (splitDots s EmptyString).

Definition isWildcard (s : string) : bool :=
  String.eqb s "x" || String.eqb s "X" || String.eqb s "*".

(** [s] without its first character when that is one of [cs]. *)
Definition stripLeading (cs : list ascii) (s : string) : string :=
  match s with
  | String c rest => if existsb (Ascii.eqb c) cs then rest else s
  | EmptyString => s
  end.

(** The strings the comparison accepts; the pattern does not tell [v] from
    [V]. *)
Definition validVersion (s : string) : bool :=
  match splitDots (stripLeading ["v"; "V"]%char s) EmptyString with
  | major :: others =>
      bool_decide (is_Some (parseComponent major)) &&
      forallb (fun c => bool_decide (is_Some (parseComponent c)) || isWildcard c)
        others &&
      (length others <=? 3)%nat
  | [] => false
  end.

(** The components as the comparison reads them: the leading [v] goes, and
    what is not a number ([None]) compares with nothing. *)
Definition components (s : string) : list (option Z) :=
  map parseComponent (splitDots (stripLeading ["v"%char] s) EmptyString).

Definition component (i : nat) (v : list (option Z)) : option Z :=
  nth i v (Some 0%Z).

Definition compareComponent (a b : option Z) : comparison :=
  match a, b with
  | Some a, Some b => (a ?= b)%Z
  | _, _ => Eq
  end.

Definition compareParsed (a b : list (option Z)) : Z :=
  match compareComponent (component 0 a) (component 0 b) with
  | Gt => 1
  | Lt => -1
  | Eq =>
      match compareComponent (component 1 a) (component 1 b) with
      | Gt => 1
      | Lt => -1
      | Eq =>
          match compareComponent (component 2 a) (component 2 b) with
          | Gt => 1
          | Lt => -1
          | Eq =>
              match compareComponent (component 3 a) (component 3 b) with
              | Gt => 1
              | Lt => -1
              | Eq => 0
              end
          end
      end
  end%Z.

Definition invalidVersion {T} (s : string) : JsValue T :=
  JError "Error" ("Invalid argument not valid semver ('" ++ s ++ "' received)")
    None.

Definition strictCompare {T} (v1 v2 : string) : Settled T Z :=
  if negb (validVersion v1) then Rejected (invalidVersion v1)
  else if negb (validVersion v2) then Rejected (invalidVersion v2)
  else Fulfilled (compareParsed (components v1) (components v2)).

(** ** What axios does with a status

    [settleStatus] is the step of axios between the answer of the server and
    the response interceptor: the status goes through [validateStatus]; an
    accepted response is resolved, a refused one is rejected with an [Error]
    that carries it.  The class sets no [validateStatus], so
    [defaultValidateStatus], the one of axios, applies unless
    [opts.axiosConfigs] brings another. *)

Definition defaultValidateStatus (status : Z) : bool :=
  ((200 <=? status) && (status <? 300))%Z.

Definition settleStatus {T} (validateStatus : Z -> bool)
    (response : AxiosResponse.t T) : Settled T (AxiosResponse.t T) :=
  if validateStatus (AxiosResponse.status response) then Fulfilled response
  else
    Rejected
      (JError "Error"
         ("Request failed with status code "
            ++ pretty (AxiosResponse.status response))
         (Some response)).

(** ** Sample clients *)

Module Sample.
(** A release with a version and a build label. *)
Record AppRelease : Type := mkRelease { version : string; build : string }.

(** A server that answers every request with [status] and [body]. *)
Definition server {D T} (status : Z) (body : ApiMessage.t T)
    : AxiosRequestConfig.t D -> Settled T (AxiosResponse.t T) :=
  fun _ => Fulfilled (AxiosResponse.mk status "" body).

(** A client over [DefaultStorage], answered by [server]. *)
Definition client {D T} (status : Z) (body : ApiMessage.t T)
    : GetDemos D T (gmap string string) :=
  mkGetDemos false DefaultStorage ∅ (server status body).

(** A storage whose [get] rejects with [cause]. *)
Definition brokenStorage {T} (cause : JsValue T) : Storage.t T unit :=
  Storage.mk (fun _ => Rejected cause) (fun _ s => (Fulfilled tt, s)).

Definition emptyWorld {D T} : World D T (gmap string string) := mkWorld ∅ [].

(** A client as [new GetDemos({})] builds it, over a server that answers every
    request with [status] and [body]: default storage, no default headers,
    the status check of axios. *)
Definition defaultClient {D T} (status : Z) (body : ApiMessage.t T)
    : GetDemos D T (gmap string string) :=
  mkGetDemos false DefaultStorage ∅
    (fun _ => settleStatus defaultValidateStatus
                (AxiosResponse.mk status "" body)).

Definition releaseBody (v : string) : ApiMessage.t AppRelease :=
  ApiMessage.mk (Some true) 0 "" (mkRelease v "stable").
End Sample.


(** ** Equations of the pipeline *)

Section PipelineFacts.
Context {D T S : Type}.
Variable this : GetDemos D T S.

Lemma debug_log_eq tag what w :
  debug_log this tag what w = (Fulfilled tt, logged this tag what w).
Proof. unfold logged, debug_log. by destruct (debug this). Qed.

Lemma store_logged tag what w : store (logged this tag what w) = store w.
Proof. unfold logged, debug_log. by destruct (debug this). Qed.

Lemma requestFulfilled_token configs w token :
  Storage.get (storage this) (store w) = Fulfilled token ->
  requestFulfilled this configs w =
    (Fulfilled (prepared token configs),
     logged this "[request] " (LogConfig (prepared token configs)) w).
Proof.
  intros Hget. unfold requestFulfilled, await, readStore.
  rewrite Hget. fold (prepared token configs).
  by rewrite debug_log_eq.
Qed.

Lemma requestFulfilled_failed configs w cause :
  Storage.get (storage this) (store w) = Rejected cause ->
  requestFulfilled this configs w = (Rejected cause, w).
Proof.
  intros Hget. unfold requestFulfilled, await, readStore. by rewrite Hget.
Qed.

Lemma responseFulfilled_eq response w :
  responseFulfilled this response w =
    (if (AxiosResponse.status response =? 500)%Z then
       Rejected (JFailure (JString SERVER_INTERNAL_ERROR))
     else if truthy (ApiMessage.ok (AxiosResponse.data response)) then
       Fulfilled response
     else Rejected (JResponse response),
     logged this "[response] " (LogResponse response) w).
Proof.
  unfold responseFulfilled, await. rewrite debug_log_eq.
  destruct (AxiosResponse.status response =? 500)%Z; [done |].
  by destruct (truthy _).
Qed.

Lemma responseRejected_eq error w :
  responseRejected this error w =
    (Rejected (responseOf error),
     logged this "[responnse:error] " (LogValue error) w).
Proof.
  unfold responseRejected, await, responseOf, settle.
  rewrite debug_log_eq. by destruct (getResponse error).
Qed.

(** A request whose token lookup succeeded reaches the adapter, and the
    response interceptor classifies what the adapter answers. *)
Lemma request_sent configs w token :
  Storage.get (storage this) (store w) = Fulfilled token ->
  request this configs w =
    let w1 := logged this "[request] " (LogConfig (prepared token configs)) w in
    match adapter this (prepared token configs) with
    | Fulfilled response => responseFulfilled this response w1
    | Rejected error => responseRejected this error w1
    end.
Proof.
  intros Hget. unfold request, then_ at 1 2 3, resolve at 1.
  rewrite (requestFulfilled_token _ _ _ Hget).
  unfold dispatchRequest, settle. cbv zeta.
  by destruct (adapter this _).
Qed.

(** A request whose token lookup failed skips the adapter. *)
Lemma request_not_sent configs w cause :
  Storage.get (storage this) (store w) = Rejected cause ->
  request this configs w = responseRejected this cause w.
Proof.
  intros Hget. unfold request, then_ at 1 2 3, resolve at 1.
  by rewrite (requestFulfilled_failed _ _ _ Hget).
Qed.
End PipelineFacts.

(** ** Token storage *)

(** C9: with the default storage, once [set(token)] has completed, [get]
    answers [token] (and keeps answering it until the next [set], since [get]
    leaves [localStorage] as it is). *)
Theorem DefaultStorage_get_after_set (T : Type) (token : string)
    (localStorage : gmap string string) :
  exists localStorage',
    Storage.set (DefaultStorage (T := T)) token localStorage
      = (Fulfilled tt, localStorage') /\
    Storage.get (DefaultStorage (T := T)) localStorage'
      = Fulfilled (Some token).
Proof.
  exists (<[GETDEMOS_TOKEN := token]> localStorage). split; [reflexivity |].
  cbn. by rewrite lookup_insert_eq.
Qed.

(** ** The request interceptor *)

(** C2, as the code has it: when the store answers a token [V], the request
    leaves the interceptor with [Authorization: Bearer V]; when it answers
    [null], the request leaves unchanged, so it has an [Authorization] header
    exactly when the configuration it came with had one. *)
Theorem request_interceptor_authorization {D T S : Type}
    (this : GetDemos D T S) (configs : AxiosRequestConfig.t D)
    (w : World D T S) (token : option string) :
  Storage.get (storage this) (store w) = Fulfilled token ->
  exists configs' w',
    requestFulfilled this configs w = (Fulfilled configs', w') /\
    match token with
    | Some V =>
        AxiosRequestConfig.headers configs' !! "Authorization"
          = Some ("Bearer " ++ V)
    | None =>
        configs' = configs /\
        (AxiosRequestConfig.headers configs !! "Authorization" = None ->
         AxiosRequestConfig.headers configs' !! "Authorization" = None)
    end.
Proof.
  intros Hget. eexists _, _. split.
  - by apply requestFulfilled_token.
  - destruct token as [V |]; cbn.
    + by rewrite lookup_insert_eq.
    + by split.
Qed.

Lemma request_interceptor_authorization_witness :
  exists configs' w',
    requestFulfilled (D := unit) (Sample.client 200 (Sample.releaseBody "1.0.0"))
      (AxiosRequestConfig.mk "/api/tags" GET ∅ None)
      (mkWorld {[GETDEMOS_TOKEN := "tok123"]} [])
    = (Fulfilled configs', w') /\
    AxiosRequestConfig.headers configs' !! "Authorization"
      = Some "Bearer tok123".
Proof.
  apply (request_interceptor_authorization
           (Sample.client 200 (Sample.releaseBody "1.0.0"))
           (AxiosRequestConfig.mk "/api/tags" GET ∅ None)
           (mkWorld {[GETDEMOS_TOKEN := "tok123"]} []) (Some "tok123")).
  reflexivity.
Defined.

(** C2 as the specification words it fails: a client built with an
    [Authorization] header in [opts.axiosConfigs] and an empty token store
    sends that header although [get()] answered [null]. *)
Lemma authorization_kept_without_token :
  let this : GetDemos unit Sample.AppRelease (gmap string string) :=
    mkGetDemos false DefaultStorage {["Authorization" := "Basic Zm9v"]}
      (Sample.server 200 (Sample.releaseBody "1.0.0")) in
  let configs := AxiosRequestConfig.mk "/api/tags" GET (axiosConfigs this) None in
  let w : World unit Sample.AppRelease (gmap string string) :=
    Sample.emptyWorld in
  Storage.get (storage this) (store w) = Fulfilled None /\
  exists configs',
    fst (requestFulfilled this configs w) = Fulfilled configs' /\
    AxiosRequestConfig.headers configs' !! "Authorization" = Some "Basic Zm9v".
Proof.
  cbv zeta. split; [reflexivity |]. eexists. split; reflexivity.
Qed.

(** ** The response interceptor *)

(** The two handlers of the response interceptor, reached through
    [settleStatus]. *)
Lemma request_settled {D T S : Type}
    (this : GetDemos D T S) (configs : AxiosRequestConfig.t D)
    (w : World D T S) (token : option string)
    (validateStatus : Z -> bool) (response : AxiosResponse.t T) :
  Storage.get (storage this) (store w) = Fulfilled token ->
  adapter this (prepared token configs) = settleStatus validateStatus response ->
  fst (request this configs w) =
    if validateStatus (AxiosResponse.status response) then
      if (AxiosResponse.status response =? 500)%Z then
        Rejected (JFailure (JString SERVER_INTERNAL_ERROR))
      else if truthy (ApiMessage.ok (AxiosResponse.data response)) then
        Fulfilled response
      else Rejected (JResponse response)
    else Rejected (JResponse response).
Proof.
  intros Hget Hadapter.
  rewrite (request_sent this configs w token Hget). cbv zeta.
  rewrite Hadapter. unfold settleStatus.
  destruct (validateStatus (AxiosResponse.status response)).
  - by rewrite responseFulfilled_eq.
  - by rewrite responseRejected_eq.
Qed.

(** C3, as the code has it: a completed response with a status other than
    500 is resolved, whole, exactly when axios accepted its status
    ([validateStatus], by default the statuses from 200 to 299) and the [ok]
    flag of its body is [true]; in every other case ([ok] false or absent, or
    a status axios refuses) the call rejects with the whole response. *)
Theorem response_resolved_iff_accepted_ok {D T S : Type}
    (this : GetDemos D T S) (configs : AxiosRequestConfig.t D)
    (w : World D T S) (token : option string)
    (validateStatus : Z -> bool) (response : AxiosResponse.t T) :
  Storage.get (storage this) (store w) = Fulfilled token ->
  adapter this (prepared token configs) = settleStatus validateStatus response ->
  AxiosResponse.status response <> 500%Z ->
  (fst (request this configs w) = Fulfilled response <->
   validateStatus (AxiosResponse.status response) = true /\
   ApiMessage.ok (AxiosResponse.data response) = Some true) /\
  (validateStatus (AxiosResponse.status response) = false \/
   ApiMessage.ok (AxiosResponse.data response) = Some false \/
   ApiMessage.ok (AxiosResponse.data response) = None ->
   fst (request this configs w) = Rejected (JResponse response)).
Proof.
  intros Hget Hadapter Hstatus.
  rewrite (request_settled this configs w token validateStatus response
             Hget Hadapter).
  apply Z.eqb_neq in Hstatus. rewrite Hstatus.
  destruct (validateStatus (AxiosResponse.status response));
    destruct (ApiMessage.ok (AxiosResponse.data response)) as [[|] |]; cbn;
    (split; [split |]); try done;
    try (by intros [? ?]); intros [| [|]]; done.
Qed.

Lemma response_resolved_iff_accepted_ok_witness :
  let body : ApiMessage.t Sample.AppRelease :=
    ApiMessage.mk (Some false) 404 "no such app" (Sample.mkRelease "" "") in
  fst (request (D := unit) (Sample.defaultClient 200 body)
         (AxiosRequestConfig.mk "/api/apps/info?id=" GET ∅ None)
         Sample.emptyWorld)
  = Rejected (JResponse (AxiosResponse.mk 200%Z "" body)).
Proof.
  cbv zeta.
  refine (proj2 (response_resolved_iff_accepted_ok
                   (Sample.defaultClient 200 _) _ _ None defaultValidateStatus
                   (AxiosResponse.mk 200%Z "" _) _ _ _) _);
    [reflexivity | reflexivity | discriminate | right; left; reflexivity].
Defined.

(** C3 as the specification words it fails: a client with the status check
    of axios gets the answer 404 with [ok: true] in its body, and the call
    rejects, with the whole response, although the flag is [true]. *)
Lemma refused_status_rejected_despite_ok :
  let body : ApiMessage.t Sample.AppRelease := Sample.releaseBody "1.0.0" in
  let response := AxiosResponse.mk 404%Z "" body in
  AxiosResponse.status response <> 500%Z /\
  ApiMessage.ok (AxiosResponse.data response) = Some true /\
  fst (request (D := unit) (Sample.defaultClient 404 body)
         (AxiosRequestConfig.mk "/api/apps/info?id=" GET ∅ None)
         Sample.emptyWorld)
  = Rejected (JResponse response).
Proof. cbv zeta. split; [discriminate | split; reflexivity]. Qed.

(** The success handler does what lines 93-99 say: a response with status 500
    that reaches it makes the call reject with the fixed value
    [{ ok: false, msg: '服务器内部错误' }], whatever its body. *)
Lemma delivered_500_rejected_generic {D T S : Type}
    (this : GetDemos D T S) (configs : AxiosRequestConfig.t D)
    (w : World D T S) (token : option string) (response : AxiosResponse.t T) :
  Storage.get (storage this) (store w) = Fulfilled token ->
  adapter this (prepared token configs) = Fulfilled response ->
  AxiosResponse.status response = 500%Z ->
  fst (request this configs w)
    = Rejected (JFailure (JString SERVER_INTERNAL_ERROR)).
Proof.
  intros Hget Hadapter Hstatus.
  rewrite (request_sent this configs w token Hget). cbv zeta.
  rewrite Hadapter, responseFulfilled_eq, Hstatus. reflexivity.
Qed.

(** A response with status 500 that axios refuses never reaches the
    [case 500] of the success handler: it goes to the error handler, and the
    call rejects with the whole response. *)
Lemma refused_500_rejected_with_body {D T S : Type}
    (this : GetDemos D T S) (configs : AxiosRequestConfig.t D)
    (w : World D T S) (token : option string)
    (validateStatus : Z -> bool) (response : AxiosResponse.t T) :
  Storage.get (storage this) (store w) = Fulfilled token ->
  adapter this (prepared token configs) = settleStatus validateStatus response ->
  AxiosResponse.status response = 500%Z ->
  validateStatus 500%Z = false ->
  fst (request this configs w) = Rejected (JResponse response).
Proof.
  intros Hget Hadapter Hstatus Hrefused.
  rewrite (request_settled this configs w token validateStatus response
             Hget Hadapter).
  by rewrite Hstatus, Hrefused.
Qed.

(** C4, where the code misses it: a client built without [validateStatus]
    gets the answer 500 with a body of its own.  Axios refuses the status, the
    [case 500] of lines 93-99 is not reached, and the call rejects with the
    whole response, body included, not with the fixed server error. *)
Theorem http_500_rejected_with_body :
  let body : ApiMessage.t Sample.AppRelease :=
    ApiMessage.mk (Some false) 500 "disk full" (Sample.mkRelease "" "") in
  let outcome :=
    fst (request (D := unit) (Sample.defaultClient 500 body)
           (AxiosRequestConfig.mk "/api/apps" GET ∅ None) Sample.emptyWorld) in
  outcome = Rejected (JResponse (AxiosResponse.mk 500%Z "" body)) /\
  outcome <> Rejected (JFailure (JString SERVER_INTERNAL_ERROR)).
Proof.
  cbv zeta. split; [| discriminate].
  refine (refused_500_rejected_with_body
            (Sample.defaultClient 500 _) _ _ None defaultValidateStatus
            (AxiosResponse.mk 500%Z "" _) _ _ _ _);
    reflexivity.
Qed.

(** ** A failing token store *)




(** ** Login *)

(** C5: when the answer to the login request has [ok: true] and carries the
    token [data], a [doLogin] that resolves has performed [set(data)] on the
    store and resolves with the answer itself; and it does resolve whenever
    the status is not 500 and [set] completes. *)
Theorem doLogin_stores_token {LoginModel S : Type}
    (this : GetDemos LoginModel string S) (payload : LoginModel)
    (w : World LoginModel string S) (token : option string)
    (response : AxiosResponse.t string) :
  Storage.get (storage this) (store w) = Fulfilled token ->
  adapter this
    (prepared token
       (AxiosRequestConfig.mk "/api/auth" POST (axiosConfigs this) (Some payload)))
    = Fulfilled response ->
  ApiMessage.ok (AxiosResponse.data response) = Some true ->
  (forall res w',
     doLogin this payload w = (Fulfilled res, w') ->
     res = response /\
     Storage.set (storage this)
       (ApiMessage.data (AxiosResponse.data response)) (store w)
     = (Fulfilled tt, store w')) /\
  (AxiosResponse.status response <> 500%Z ->
   forall s',
     Storage.set (storage this)
       (ApiMessage.data (AxiosResponse.data response)) (store w)
     = (Fulfilled tt, s') ->
     exists w', doLogin this payload w = (Fulfilled response, w') /\
                store w' = s').
Proof.
  intros Hget Hadapter Hok.
  assert (Hpost : client_post this "/api/auth" payload w =
                  responseFulfilled this response
                    (logged this "[request] "
                       (LogConfig
                          (prepared token
                             (AxiosRequestConfig.mk "/api/auth" POST
                                (axiosConfigs this) (Some payload)))) w)).
  { unfold client_post. rewrite (request_sent this _ w token Hget).
    cbv zeta. by rewrite Hadapter. }
  unfold doLogin, await. rewrite Hpost, responseFulfilled_eq, Hok.
  cbn [truthy].
  destruct (AxiosResponse.status response =? 500)%Z eqn:Hstatus.
  - split; [intros res w' [=] |].
    intros Hne. apply Z.eqb_eq in Hstatus. contradiction.
  - rewrite Hok. cbn [truthy]. unfold writeStore. rewrite !store_logged.
    destruct (Storage.set (storage this) _ (store w)) as [[[] | e] s] eqn:Hset.
    + split.
      * intros res w' [= <- <-]. by split.
      * intros _ s' [= <-]. eexists. by split.
    + split; [intros res w' [=] | intros _ s' [=]].
Qed.

(** The specification's login example: the answer [{ok: true, data: "tok123"}]
    leaves ["tok123"] in the default storage. *)
Lemma doLogin_stores_token_witness :
  exists w',
    doLogin (LoginModel := string)
      (Sample.client 200 (ApiMessage.mk (Some true) 0 "" "tok123"))
      "user:secret" Sample.emptyWorld
    = (Fulfilled (AxiosResponse.mk 200%Z "" (ApiMessage.mk (Some true) 0 "" "tok123")),
       w') /\
    Storage.get (DefaultStorage (T := string)) (store w')
      = Fulfilled (Some "tok123").
Proof.
  destruct (proj2 (doLogin_stores_token
                     (Sample.client 200 (ApiMessage.mk (Some true) 0 "" "tok123"))
                     "user:secret" Sample.emptyWorld None
                     (AxiosResponse.mk 200%Z "" (ApiMessage.mk (Some true) 0 "" "tok123"))
                     eq_refl eq_refl eq_refl)
              ltac:(discriminate) _ eq_refl) as [w' [Hlogin Hstore]].
  exists w'. split; [exact Hlogin |]. rewrite Hstore. reflexivity.
Defined.

(** C6: when the answer to the login request has [ok] false (or absent),
    [doLogin] rejects and the store is what it was before the call. *)
Theorem doLogin_failure_keeps_store {LoginModel S : Type}
    (this : GetDemos LoginModel string S) (payload : LoginModel)
    (w : World LoginModel string S) (token : option string)
    (response : AxiosResponse.t string) :
  Storage.get (storage this) (store w) = Fulfilled token ->
  adapter this
    (prepared token
       (AxiosRequestConfig.mk "/api/auth" POST (axiosConfigs this) (Some payload)))
    = Fulfilled response ->
  truthy (ApiMessage.ok (AxiosResponse.data response)) = false ->
  exists e w',
    doLogin this payload w = (Rejected e, w') /\ store w' = store w.
Proof.
  intros Hget Hadapter Hok.
  unfold doLogin, await, client_post.
  rewrite (request_sent this _ w token Hget). cbv zeta.
  rewrite Hadapter, responseFulfilled_eq, Hok.
  destruct (AxiosResponse.status response =? 500)%Z;
    eexists _, _; (split; [reflexivity |]); by rewrite !store_logged.
Qed.

Lemma doLogin_failure_keeps_store_witness :
  exists e w',
    doLogin (LoginModel := string)
      (Sample.client 200 (ApiMessage.mk (Some false) 401 "bad password" ""))
      "user:wrong" (mkWorld {[GETDEMOS_TOKEN := "old"]} [])
    = (Rejected e, w') /\
    store w' = {[GETDEMOS_TOKEN := "old"]}.
Proof.
  change ({[GETDEMOS_TOKEN := "old"]} : gmap string string)
    with (store (mkWorld (D := string) (T := string)
                   ({[GETDEMOS_TOKEN := "old"]} : gmap string string) [])) at 2.
  apply (doLogin_failure_keeps_store
           (Sample.client 200 (ApiMessage.mk (Some false) 401 "bad password" ""))
           "user:wrong" (mkWorld {[GETDEMOS_TOKEN := "old"]} []) (Some "old")
           (AxiosResponse.mk 200%Z "" (ApiMessage.mk (Some false) 401 "bad password" "")));
    reflexivity.
Defined.

(** A login whose request fails in the transport leaves the store alone as
    well. *)
Lemma doLogin_transport_error_keeps_store {LoginModel S : Type}
    (this : GetDemos LoginModel string S) (payload : LoginModel)
    (w : World LoginModel string S) (token : option string)
    (error : JsValue string) :
  Storage.get (storage this) (store w) = Fulfilled token ->
  adapter this
    (prepared token
       (AxiosRequestConfig.mk "/api/auth" POST (axiosConfigs this) (Some payload)))
    = Rejected error ->
  exists w',
    doLogin this payload w = (Rejected (responseOf error), w') /\
    store w' = store w.
Proof.
  intros Hget Hadapter.
  unfold doLogin, await, client_post.
  rewrite (request_sent this _ w token Hget). cbv zeta.
  rewrite Hadapter, responseRejected_eq.
  eexists. split; [reflexivity |]. by rewrite !store_logged.
Qed.

(** ** Update check *)

Section UpdateCheck.
Context {D AppRelease S : Type}.
Variable version : AppRelease -> string.
Variable compareVersions : string -> string -> Settled AppRelease Z.
Variable this : GetDemos D AppRelease S.

(** [checkUpdate] after a successful fetch: the comparison decides. *)
Lemma checkUpdate_fetched versionName versionCode w latestRelease w' :
  getAppLatestRelease this "[object Object]" w = (Fulfilled latestRelease, w') ->
  checkUpdate version compareVersions this versionName versionCode w =
    match compareVersions
            (version (ApiMessage.data (AxiosResponse.data latestRelease)))
            versionName with
    | Fulfilled order =>
        (Fulfilled
           (if (order =? 1)%Z then
              mkCheckUpdateResult (Some false)
                (Some (ApiMessage.data (AxiosResponse.data latestRelease)))
            else mkCheckUpdateResult (Some true) None), w')
    | Rejected thrown => (Rejected thrown, w')
    end.
Proof.
  intros Hfetch. unfold checkUpdate, await, settle. rewrite Hfetch.
  destruct (compareVersions _ versionName) as [order | thrown]; [| done].
  by destruct (order =? 1)%Z.
Qed.
End UpdateCheck.

(** C1: after a successful fetch, when [compareVersions] puts the release's
    version strictly above [versionName] (it answers 1), [checkUpdate]
    resolves with [{ latest: false, release }]; with any other answer, the
    answer 0 of equal versions included, it resolves with [{ latest: true }]
    and no [release]. *)
Theorem checkUpdate_compares_versions {D AppRelease S : Type}
    (version : AppRelease -> string)
    (compareVersions : string -> string -> Settled AppRelease Z)
    (this : GetDemos D AppRelease S)
    (versionName : string) (versionCode : option string)
    (w w' : World D AppRelease S)
    (latestRelease : AxiosResponse.t AppRelease) (order : Z) :
  getAppLatestRelease this "[object Object]" w = (Fulfilled latestRelease, w') ->
  compareVersions
    (version (ApiMessage.data (AxiosResponse.data latestRelease))) versionName
    = Fulfilled order ->
  (order = 1%Z ->
   checkUpdate version compareVersions this versionName versionCode w
   = (Fulfilled
        (mkCheckUpdateResult (Some false)
           (Some (ApiMessage.data (AxiosResponse.data latestRelease)))), w')) /\
  (order <> 1%Z ->
   checkUpdate version compareVersions this versionName versionCode w
   = (Fulfilled (mkCheckUpdateResult (Some true) None), w')).
Proof.
  intros Hfetch Horder.
  rewrite (checkUpdate_fetched version compareVersions this _ _ _ _ _ Hfetch).
  rewrite Horder. split.
  - by intros ->.
  - intros Hne. apply Z.eqb_neq in Hne. by rewrite Hne.
Qed.

Lemma checkUpdate_compares_versions_witness :
  checkUpdate (D := unit) Sample.version strictCompare
    (Sample.client 200 (Sample.releaseBody "1.2.0")) "1.0.0" None
    Sample.emptyWorld
  = (Fulfilled (mkCheckUpdateResult (Some false)
                  (Some (Sample.mkRelease "1.2.0" "stable"))),
     Sample.emptyWorld).
Proof.
  refine (proj1 (checkUpdate_compares_versions Sample.version strictCompare
                   (Sample.client 200 (Sample.releaseBody "1.2.0"))
                   "1.0.0" None Sample.emptyWorld Sample.emptyWorld
                   (AxiosResponse.mk 200%Z "" (Sample.releaseBody "1.2.0"))
                   1%Z _ _) _); reflexivity.
Defined.

(** The three update checks listed in the specification. *)
Example checkUpdate_older :
  fst (checkUpdate (D := unit) Sample.version strictCompare
         (Sample.client 200 (Sample.releaseBody "1.2.0")) "1.0.0" None
         Sample.emptyWorld)
  = Fulfilled (mkCheckUpdateResult (Some false)
                 (Some (Sample.mkRelease "1.2.0" "stable"))).
Proof. reflexivity. Qed.

Example checkUpdate_newer :
  fst (checkUpdate (D := unit) Sample.version strictCompare
         (Sample.client 200 (Sample.releaseBody "1.2.0")) "2.0.0" None
         Sample.emptyWorld)
  = Fulfilled (mkCheckUpdateResult (Some true) None).
Proof. reflexivity. Qed.

Example checkUpdate_same :
  fst (checkUpdate (D := unit) Sample.version strictCompare
         (Sample.client 200 (Sample.releaseBody "1.0.0")) "1.0.0" None
         Sample.emptyWorld)
  = Fulfilled (mkCheckUpdateResult (Some true) None).
Proof. reflexivity. Qed.

(** C7, as the code has it: [checkUpdate] neither validates the two version
    strings nor wraps an error.  After a successful fetch it rejects exactly
    when [compareVersions] throws, with the thrown value as it is; when
    [compareVersions] answers a number, for whatever strings, it resolves, and
    with [{ latest: true }] unless that number is 1. *)
Theorem checkUpdate_passes_comparison_on {D AppRelease S : Type}
    (version : AppRelease -> string)
    (compareVersions : string -> string -> Settled AppRelease Z)
    (this : GetDemos D AppRelease S)
    (versionName : string) (versionCode : option string)
    (w w' : World D AppRelease S)
    (latestRelease : AxiosResponse.t AppRelease) :
  getAppLatestRelease this "[object Object]" w = (Fulfilled latestRelease, w') ->
  (forall thrown,
     compareVersions
       (version (ApiMessage.data (AxiosResponse.data latestRelease))) versionName
     = Rejected thrown ->
     checkUpdate version compareVersions this versionName versionCode w
     = (Rejected thrown, w')) /\
  (forall order,
     compareVersions
       (version (ApiMessage.data (AxiosResponse.data latestRelease))) versionName
     = Fulfilled order ->
     exists result,
       checkUpdate version compareVersions this versionName versionCode w
       = (Fulfilled result, w') /\
       (order <> 1%Z -> result = mkCheckUpdateResult (Some true) None)).
Proof.
  intros Hfetch.
  rewrite (checkUpdate_fetched version compareVersions this _ _ _ _ _ Hfetch).
  split.
  - by intros thrown ->.
  - intros order ->. eexists. split; [reflexivity |].
    intros Hne. apply Z.eqb_neq in Hne. by rewrite Hne.
Qed.

Lemma checkUpdate_passes_comparison_on_witness :
  checkUpdate (D := unit) Sample.version strictCompare
    (Sample.client 200 (Sample.releaseBody "1.2.0")) "not-a-version" None
    Sample.emptyWorld
  = (Rejected
       (JError "Error"
          "Invalid argument not valid semver ('not-a-version' received)" None),
     Sample.emptyWorld).
Proof.
  refine (proj1 (checkUpdate_passes_comparison_on Sample.version strictCompare
                   (Sample.client 200 (Sample.releaseBody "1.2.0"))
                   "not-a-version" None Sample.emptyWorld Sample.emptyWorld
                   (AxiosResponse.mk 200%Z "" (Sample.releaseBody "1.2.0")) _)
            _ _); reflexivity.
Defined.

(** C7 as the specification words it fails: the fetched release has the
    version [1.x], which is no dotted numeric version.  The comparison accepts
    the wildcard and answers 0 against [1.0.0], and [checkUpdate] resolves
    with [{ latest: true }] instead of failing. *)
Lemma malformed_version_reported_latest :
  parseVersion "1.x" = None /\
  strictCompare (T := Sample.AppRelease) "1.x" "1.0.0" = Fulfilled 0%Z /\
  fst (checkUpdate (D := unit) Sample.version strictCompare
         (Sample.client 200 (Sample.releaseBody "1.x")) "1.0.0" None
         Sample.emptyWorld)
  = Fulfilled (mkCheckUpdateResult (Some true) None).
Proof. repeat split; reflexivity. Qed.

(** C10: [checkUpdate] never reads [versionCode]; two calls that differ in it
    alone have the same outcome. *)
Theorem checkUpdate_ignores_versionCode {D AppRelease S : Type}
    (version : AppRelease -> string)
    (compareVersions : string -> string -> Settled AppRelease Z)
    (this : GetDemos D AppRelease S)
    (versionName : string) (versionCode1 versionCode2 : option string)
    (w : World D AppRelease S) :
  checkUpdate version compareVersions this versionName versionCode1 w
  = checkUpdate version compareVersions this versionName versionCode2 w.
Proof. reflexivity. Qed.

(** ** The pipeline as a whole *)

Section PipelineInvariants.
Context {D T S : Type}.
Variable this : GetDemos D T S.

(** Every request takes one of three paths. *)
Lemma request_cases config w :
  request this config w =
    match Storage.get (storage this) (store w) with
    | Fulfilled token =>
        match adapter this (prepared token config) with
        | Fulfilled response =>
            responseFulfilled this response
              (logged this "[request] " (LogConfig (prepared token config)) w)
        | Rejected error =>
            responseRejected this error
              (logged this "[request] " (LogConfig (prepared token config)) w)
        end
    | Rejected cause => responseRejected this cause w
    end.
Proof.
  destruct (Storage.get (storage this) (store w)) as [token | cause] eqn:Hget.
  - by rewrite (request_sent this config w token Hget).
  - by rewrite (request_not_sent this config w cause Hget).
Qed.

Lemma responseOf_shape (error : JsValue T) :
  (exists r, responseOf error = JResponse r) \/
  responseOf error = JUndefined \/ responseOf error = JTypeError.
Proof.
  destruct error as [| | s | | name message [r |] | r | msg]; cbn; eauto.
Qed.

Lemma logged_off tag what (w : World D T S) :
  debug this = false -> logged this tag what w = w.
Proof. intros Hoff. unfold logged, debug_log. by rewrite Hoff. Qed.

Lemma logged_on tag what (w : World D T S) :
  debug this = true ->
  logged this tag what w = mkWorld (store w) (console w ++ [(tag, what)]).
Proof. intros Hon. unfold logged, debug_log. by rewrite Hon. Qed.

Lemma request_store config (w : World D T S) :
  store (snd (request this config w)) = store w.
Proof.
  rewrite request_cases.
  destruct (Storage.get _ _) as [token | cause].
  - destruct (adapter this _) as [response | error].
    + rewrite responseFulfilled_eq. cbn [snd]. by rewrite !store_logged.
    + rewrite responseRejected_eq. cbn [snd]. by rewrite !store_logged.
  - rewrite responseRejected_eq. cbn [snd]. by rewrite store_logged.
Qed.

Lemma request_fulfilled_inv config (w w' : World D T S) response :
  request this config w = (Fulfilled response, w') ->
  exists token,
    Storage.get (storage this) (store w) = Fulfilled token /\
    adapter this (prepared token config) = Fulfilled response /\
    AxiosResponse.status response <> 500%Z /\
    ApiMessage.ok (AxiosResponse.data response) = Some true.
Proof.
  rewrite request_cases.
  destruct (Storage.get _ _) as [token | cause].
  - destruct (adapter this _) as [r | error] eqn:Hadapter.
    + rewrite responseFulfilled_eq.
      destruct (AxiosResponse.status r =? 500)%Z eqn:Hstatus; [intros [=] |].
      destruct (ApiMessage.ok (AxiosResponse.data r)) as [[|] |] eqn:Hok;
        cbn; intros [= <- <-].
      exists token. repeat split; try done. by apply Z.eqb_neq.
    + rewrite responseRejected_eq. intros [=].
  - rewrite responseRejected_eq. intros [=].
Qed.
End PipelineInvariants.

(** X1: no request writes the token store, whatever its outcome. *)
Theorem request_preserves_store {D T S : Type}
    (this : GetDemos D T S) (config : AxiosRequestConfig.t D)
    (w : World D T S) :
  store (snd (request this config w)) = store w.
Proof. apply request_store. Qed.

(** X2: a request resolves only with a response the dispatch delivered for
    the prepared request, whose status is not 500 and whose [ok] flag is
    [true]; callers never see a resolved response with [ok] false. *)
Theorem request_resolved_is_ok {D T S : Type}
    (this : GetDemos D T S) (config : AxiosRequestConfig.t D)
    (w w' : World D T S) (response : AxiosResponse.t T) :
  request this config w = (Fulfilled response, w') ->
  exists token,
    Storage.get (storage this) (store w) = Fulfilled token /\
    adapter this (prepared token config) = Fulfilled response /\
    AxiosResponse.status response <> 500%Z /\
    ApiMessage.ok (AxiosResponse.data response) = Some true.
Proof. apply request_fulfilled_inv. Qed.

Lemma request_resolved_is_ok_witness :
  exists token,
    Storage.get (DefaultStorage (T := Sample.AppRelease)) ∅ = Fulfilled token /\
    Sample.server (D := unit) 200 (Sample.releaseBody "1.0.0")
      (prepared token (AxiosRequestConfig.mk "/api/tags" GET ∅ None))
    = Fulfilled (AxiosResponse.mk 200%Z "" (Sample.releaseBody "1.0.0")) /\
    200%Z <> 500%Z /\
    Some true = Some true.
Proof.
  apply (request_resolved_is_ok (D := unit)
           (Sample.client 200 (Sample.releaseBody "1.0.0"))
           (AxiosRequestConfig.mk "/api/tags" GET ∅ None)
           Sample.emptyWorld Sample.emptyWorld
           (AxiosResponse.mk 200%Z "" (Sample.releaseBody "1.0.0"))).
  reflexivity.
Defined.

(** X3: the value a request rejects with is one of four: the fixed server
    error, a whole response, [undefined], or the engine's [TypeError].  The
    error object of the token store or of the transport itself never reaches
    the caller, and neither does the [{ ok: false, msg: error }] of the
    request-side error handler. *)
Theorem request_rejection_shape {D T S : Type}
    (this : GetDemos D T S) (config : AxiosRequestConfig.t D)
    (w w' : World D T S) (e : JsValue T) :
  request this config w = (Rejected e, w') ->
  e = JFailure (JString SERVER_INTERNAL_ERROR) \/
  (exists r, e = JResponse r) \/
  e = JUndefined \/
  e = JTypeError.
Proof.
  rewrite request_cases.
  destruct (Storage.get _ _) as [token | cause].
  - destruct (adapter this _) as [r | error].
    + rewrite responseFulfilled_eq.
      destruct (AxiosResponse.status r =? 500)%Z; [intros [= <- _]; by left |].
      destruct (truthy _); intros [= <- _]. right. left. by exists r.
    + rewrite responseRejected_eq. intros [= <- _]. right.
      apply responseOf_shape.
  - rewrite responseRejected_eq. intros [= <- _]. right.
    apply responseOf_shape.
Qed.

Lemma request_rejection_shape_witness :
  JUndefined (T := Sample.AppRelease)
    = JFailure (JString SERVER_INTERNAL_ERROR) \/
  (exists r : AxiosResponse.t Sample.AppRelease, JUndefined = JResponse r) \/
  JUndefined = JUndefined (T := Sample.AppRelease) \/
  JUndefined = JTypeError (T := Sample.AppRelease).
Proof.
  apply (request_rejection_shape
           (mkGetDemos (D := unit) false
              (Sample.brokenStorage (JError "SecurityError" "" None)) ∅
              (Sample.server 200 (Sample.releaseBody "1.0.0")))
           (AxiosRequestConfig.mk "/api/tags" GET ∅ None)
           (mkWorld tt []) (mkWorld tt [])).
  reflexivity.
Defined.

(** X4: when the dispatch rejects with an error object, the call rejects with
    the response that error carries, whatever its status (500 included), and
    with [undefined] when it carries none (no answer was received). *)
Theorem request_transport_error {D T S : Type}
    (this : GetDemos D T S) (config : AxiosRequestConfig.t D)
    (w : World D T S) (token : option string)
    (name message : string) (carried : option (AxiosResponse.t T)) :
  Storage.get (storage this) (store w) = Fulfilled token ->
  adapter this (prepared token config) = Rejected (JError name message carried) ->
  fst (request this config w)
  = Rejected (match carried with
              | Some response => JResponse response
              | None => JUndefined
              end).
Proof.
  intros Hget Hadapter.
  rewrite request_cases, Hget, Hadapter, responseRejected_eq.
  by destruct carried.
Qed.

Lemma request_transport_error_witness :
  let body := Sample.releaseBody "1.0.0" in
  let this : GetDemos unit Sample.AppRelease (gmap string string) :=
    mkGetDemos false DefaultStorage ∅
      (fun _ => Rejected
                  (JError "Error" "Request failed with status code 500"
                     (Some (AxiosResponse.mk 500%Z "" body)))) in
  fst (request this (AxiosRequestConfig.mk "/api/tags" GET ∅ None)
         Sample.emptyWorld)
  = Rejected (JResponse (AxiosResponse.mk 500%Z "" body)).
Proof.
  cbv zeta.
  apply (request_transport_error _ _ _ None "Error"
           "Request failed with status code 500"
           (Some (AxiosResponse.mk 500%Z "" (Sample.releaseBody "1.0.0"))));
    reflexivity.
Defined.

(** X5: with [opts.debug] unset, a request leaves the world as it found it:
    nothing is logged and nothing is stored. *)
Theorem request_silent_without_debug {D T S : Type}
    (this : GetDemos D T S) (config : AxiosRequestConfig.t D)
    (w : World D T S) :
  debug this = false ->
  snd (request this config w) = w.
Proof.
  intros Hoff. rewrite request_cases.
  destruct (Storage.get _ _) as [token | cause].
  - destruct (adapter this _) as [response | error].
    + rewrite responseFulfilled_eq. cbn [snd]. by rewrite !logged_off.
    + rewrite responseRejected_eq. cbn [snd]. by rewrite !logged_off.
  - rewrite responseRejected_eq. cbn [snd]. by rewrite logged_off.
Qed.

Lemma request_silent_without_debug_witness :
  snd (request (D := unit)
         (Sample.client 200 (Sample.releaseBody "1.0.0"))
         (AxiosRequestConfig.mk "/api/tags" GET ∅ None)
         (mkWorld {[GETDEMOS_TOKEN := "tok123"]} []))
  = mkWorld {[GETDEMOS_TOKEN := "tok123"]} [].
Proof.
  apply (request_silent_without_debug
           (Sample.client 200 (Sample.releaseBody "1.0.0"))).
  reflexivity.
Defined.

(** X6: with [opts.debug] set, a request appends to the console exactly
    these entries: the prepared request and then the response or the
    transport's error, or, when the token store failed, that failure alone
    under the tag of the response-side error handler. *)
Theorem request_debug_log {D T S : Type}
    (this : GetDemos D T S) (config : AxiosRequestConfig.t D)
    (w : World D T S) :
  debug this = true ->
  console (snd (request this config w))
  = (console w ++
     match Storage.get (storage this) (store w) with
     | Fulfilled token =>
         [("[request] ", LogConfig (prepared token config));
          match adapter this (prepared token config) with
          | Fulfilled response => ("[response] ", LogResponse response)
          | Rejected error => ("[responnse:error] ", LogValue error)
          end]
     | Rejected cause => [("[responnse:error] ", LogValue cause)]
     end)%list.
Proof.
  intros Hon. rewrite request_cases.
  destruct (Storage.get _ _) as [token | cause].
  - destruct (adapter this _) as [response | error].
    + rewrite responseFulfilled_eq. cbn [snd]. rewrite !logged_on by done.
      cbn. by rewrite <- app_assoc.
    + rewrite responseRejected_eq. cbn [snd]. rewrite !logged_on by done.
      cbn. by rewrite <- app_assoc.
  - rewrite responseRejected_eq. cbn [snd]. by rewrite logged_on.
Qed.

Lemma request_debug_log_witness :
  let this : GetDemos unit Sample.AppRelease (gmap string string) :=
    mkGetDemos true DefaultStorage ∅
      (Sample.server 200 (Sample.releaseBody "1.0.0")) in
  let config := AxiosRequestConfig.mk "/api/tags" GET ∅ None in
  console (snd (request this config Sample.emptyWorld))
  = [("[request] ", LogConfig config);
     ("[response] ",
      LogResponse (AxiosResponse.mk 200%Z "" (Sample.releaseBody "1.0.0")))].
Proof.
  cbv zeta.
  apply (request_debug_log
           (mkGetDemos true DefaultStorage ∅
              (Sample.server 200 (Sample.releaseBody "1.0.0")))
           (AxiosRequestConfig.mk "/api/tags" GET ∅ None) Sample.emptyWorld).
  reflexivity.
Defined.

(** X7: with [opts.debug] set and a token [V] in the store, the console
    receives the prepared request with its [Authorization: Bearer V] header:
    debug logging writes the token out. *)
Theorem request_debug_logs_token {D T S : Type}
    (this : GetDemos D T S) (config : AxiosRequestConfig.t D)
    (w : World D T S) (V : string) :
  debug this = true ->
  Storage.get (storage this) (store w) = Fulfilled (Some V) ->
  exists configs,
    ("[request] ", LogConfig configs) ∈ console (snd (request this config w)) /\
    AxiosRequestConfig.headers configs !! "Authorization"
      = Some ("Bearer " ++ V).
Proof.
  intros Hon Hget. exists (prepared (Some V) config). split.
  - rewrite request_cases, Hget.
    destruct (adapter this _) as [response | error].
    + rewrite responseFulfilled_eq. cbn [snd]. rewrite !logged_on by done.
      cbn. set_solver.
    + rewrite responseRejected_eq. cbn [snd]. rewrite !logged_on by done.
      cbn. set_solver.
  - cbn. by rewrite lookup_insert_eq.
Qed.

Lemma request_debug_logs_token_witness :
  let this : GetDemos unit Sample.AppRelease (gmap string string) :=
    mkGetDemos true DefaultStorage ∅
      (Sample.server 200 (Sample.releaseBody "1.0.0")) in
  let w : World unit Sample.AppRelease (gmap string string) :=
    mkWorld {[GETDEMOS_TOKEN := "tok123"]} [] in
  exists configs,
    ("[request] ", LogConfig configs)
      ∈ console (snd (request this
                        (AxiosRequestConfig.mk "/api/tags" GET ∅ None) w)) /\
    AxiosRequestConfig.headers configs !! "Authorization"
      = Some "Bearer tok123".
Proof.
  cbv zeta.
  apply (request_debug_logs_token
           (mkGetDemos true DefaultStorage ∅
              (Sample.server 200 (Sample.releaseBody "1.0.0")))
           (AxiosRequestConfig.mk "/api/tags" GET ∅ None)
           (mkWorld {[GETDEMOS_TOKEN := "tok123"]} []) "tok123");
    reflexivity.
Defined.

(** X8: the request interceptor changes nothing but the [Authorization]
    header: the URL, the method, the body and every other header leave it as
    they came. *)
Theorem request_interceptor_frame {D T S : Type}
    (this : GetDemos D T S) (configs : AxiosRequestConfig.t D)
    (w : World D T S) (token : option string) :
  Storage.get (storage this) (store w) = Fulfilled token ->
  exists configs' w',
    requestFulfilled this configs w = (Fulfilled configs', w') /\
    AxiosRequestConfig.url configs' = AxiosRequestConfig.url configs /\
    AxiosRequestConfig.method configs' = AxiosRequestConfig.method configs /\
    AxiosRequestConfig.data configs' = AxiosRequestConfig.data configs /\
    forall header, header <> "Authorization" ->
      AxiosRequestConfig.headers configs' !! header
      = AxiosRequestConfig.headers configs !! header.
Proof.
  intros Hget. eexists _, _. split; [by apply requestFulfilled_token |].
  destruct token as [V |]; cbn; repeat split; try done.
  intros header Hne. by rewrite lookup_insert_ne.
Qed.

Lemma request_interceptor_frame_witness :
  let this : GetDemos string Sample.AppRelease (gmap string string) :=
    Sample.client 200 (Sample.releaseBody "1.0.0") in
  let configs :=
    AxiosRequestConfig.mk "/api/apps" POST {["Accept" := "application/json"]}
      (Some "demo") in
  exists configs' w',
    requestFulfilled this configs (mkWorld {[GETDEMOS_TOKEN := "tok123"]} [])
    = (Fulfilled configs', w') /\
    AxiosRequestConfig.url configs' = "/api/apps" /\
    AxiosRequestConfig.method configs' = POST /\
    AxiosRequestConfig.data configs' = Some "demo" /\
    forall header, header <> "Authorization" ->
      AxiosRequestConfig.headers configs' !! header
      = ({["Accept" := "application/json"]} : gmap string string) !! header.
Proof.
  cbv zeta.
  refine (request_interceptor_frame
            (Sample.client 200 (Sample.releaseBody "1.0.0"))
            (AxiosRequestConfig.mk "/api/apps" POST
               {["Accept" := "application/json"]} (Some "demo"))
            (mkWorld {[GETDEMOS_TOKEN := "tok123"]} []) (Some "tok123") _).
  reflexivity.
Defined.

(** ** The default storage *)

(** X9: [DefaultStorage.set] writes the one key [getdemos-token]; every other
    entry of [localStorage] is left as it was. *)
Theorem DefaultStorage_set_frame (T : Type) (token key : string)
    (localStorage : gmap string string) :
  key <> GETDEMOS_TOKEN ->
  snd (Storage.set (DefaultStorage (T := T)) token localStorage) !! key
  = localStorage !! key.
Proof. intros Hne. cbn. by rewrite lookup_insert_ne. Qed.

Lemma DefaultStorage_set_frame_witness :
  snd (Storage.set (DefaultStorage (T := unit)) "tok123"
         {["theme" := "dark"]}) !! "theme"
  = Some "dark".
Proof.
  rewrite (DefaultStorage_set_frame unit "tok123" "theme" {["theme" := "dark"]});
    [reflexivity | discriminate].
Defined.

(** X10: the last [set] wins: after [set(first)] and [set(second)] the storage
    is what [set(second)] alone leaves, and [get] answers [second]. *)
Theorem DefaultStorage_last_set_wins (T : Type) (first second : string)
    (localStorage : gmap string string) :
  let after :=
    snd (Storage.set (DefaultStorage (T := T)) second
           (snd (Storage.set (DefaultStorage (T := T)) first localStorage))) in
  after = snd (Storage.set (DefaultStorage (T := T)) second localStorage) /\
  Storage.get (DefaultStorage (T := T)) after = Fulfilled (Some second).
Proof.
  cbn. split; [by rewrite insert_insert_eq | by rewrite lookup_insert_eq].
Qed.

(** ** Login, continued *)

Section LoginFacts.
Context {LoginModel S : Type}.
Variable this : GetDemos LoginModel string S.

(** The request [doLogin] sends, before the interceptor. *)
Lemma doLogin_cases payload w :
  doLogin this payload w =
    match request this
            (AxiosRequestConfig.mk "/api/auth" POST (axiosConfigs this)
               (Some payload)) w with
    | (Fulfilled res, w1) =>
        if truthy (ApiMessage.ok (AxiosResponse.data res)) then
          match Storage.set (storage this)
                  (ApiMessage.data (AxiosResponse.data res)) (store w1) with
          | (Fulfilled _, s') => (Fulfilled res, mkWorld s' (console w1))
          | (Rejected e, s') => (Rejected e, mkWorld s' (console w1))
          end
        else (Fulfilled res, w1)
    | (Rejected e, w1) => (Rejected e, w1)
    end.
Proof.
  unfold doLogin, await, client_post.
  destruct (request this _ w) as [[res | e] w1]; [| done].
  destruct (truthy _); [| done].
  unfold writeStore.
  by destruct (Storage.set (storage this) _ (store w1)) as [[[] | e] s'].
Qed.
End LoginFacts.

(** X11: whenever [doLogin] resolves, the response it returns has [ok] true
    and a status other than 500, and [set] has completed with the token of
    that response: a resolved login has always stored its token. *)
Theorem doLogin_resolved_has_stored {LoginModel S : Type}
    (this : GetDemos LoginModel string S) (payload : LoginModel)
    (w w' : World LoginModel string S) (res : AxiosResponse.t string) :
  doLogin this payload w = (Fulfilled res, w') ->
  ApiMessage.ok (AxiosResponse.data res) = Some true /\
  AxiosResponse.status res <> 500%Z /\
  Storage.set (storage this) (ApiMessage.data (AxiosResponse.data res)) (store w)
  = (Fulfilled tt, store w').
Proof.
  rewrite doLogin_cases.
  pose proof (request_store this
                (AxiosRequestConfig.mk "/api/auth" POST (axiosConfigs this)
                   (Some payload)) w) as Hstore.
  destruct (request this _ w) as [[r | e] w1] eqn:Hrequest; [| intros [=]].
  cbn [snd] in Hstore.
  destruct (request_fulfilled_inv this _ w w1 r Hrequest)
    as (token & _ & _ & Hstatus & Hok).
  rewrite Hok. cbn [truthy]. rewrite Hstore.
  destruct (Storage.set (storage this) _ (store w)) as [[[] | e] s'] eqn:Hset;
    intros [= <- <-].
  by repeat split.
Qed.

Lemma doLogin_resolved_has_stored_witness :
  Storage.set (DefaultStorage (T := string)) "tok123" ∅
  = (Fulfilled tt, {[GETDEMOS_TOKEN := "tok123"]}).
Proof.
  refine (proj2 (proj2 (doLogin_resolved_has_stored (LoginModel := string)
                          (Sample.client 200 (ApiMessage.mk (Some true) 0 "" "tok123"))
                          "user:secret" Sample.emptyWorld
                          (mkWorld {[GETDEMOS_TOKEN := "tok123"]} [])
                          (AxiosResponse.mk 200%Z ""
                             (ApiMessage.mk (Some true) 0 "" "tok123")) _))).
  reflexivity.
Defined.

(** X12: when the server accepted the login but [set] rejects with [e],
    [doLogin] rejects with [e]: the caller does not get the response, and the
    store is in the state [set] left. *)
Theorem doLogin_set_failure {LoginModel S : Type}
    (this : GetDemos LoginModel string S) (payload : LoginModel)
    (w : World LoginModel string S) (token : option string)
    (response : AxiosResponse.t string) (e : JsValue string) (s' : S) :
  Storage.get (storage this) (store w) = Fulfilled token ->
  adapter this
    (prepared token
       (AxiosRequestConfig.mk "/api/auth" POST (axiosConfigs this) (Some payload)))
    = Fulfilled response ->
  AxiosResponse.status response <> 500%Z ->
  ApiMessage.ok (AxiosResponse.data response) = Some true ->
  Storage.set (storage this)
    (ApiMessage.data (AxiosResponse.data response)) (store w)
  = (Rejected e, s') ->
  exists w', doLogin this payload w = (Rejected e, w') /\ store w' = s'.
Proof.
  intros Hget Hadapter Hstatus Hok Hset.
  rewrite doLogin_cases, request_cases, Hget, Hadapter, responseFulfilled_eq.
  apply Z.eqb_neq in Hstatus. rewrite Hstatus, Hok. cbn [truthy].
  rewrite Hok. cbn [truthy].
  rewrite !store_logged, Hset. eexists. by split.
Qed.

Lemma doLogin_set_failure_witness :
  let quota : JsValue string := JError "QuotaExceededError" "" None in
  let this : GetDemos string string unit :=
    mkGetDemos false
      (Storage.mk (fun _ => Fulfilled None) (fun _ s => (Rejected quota, s)))
      ∅ (Sample.server 200 (ApiMessage.mk (Some true) 0 "" "tok123")) in
  exists w',
    doLogin this "user:secret" (mkWorld tt []) = (Rejected quota, w') /\
    store w' = tt.
Proof.
  cbv zeta.
  refine (doLogin_set_failure _ "user:secret" (mkWorld tt []) None
            (AxiosResponse.mk 200%Z "" (ApiMessage.mk (Some true) 0 "" "tok123"))
            _ tt _ _ _ _ _);
    [reflexivity | reflexivity | discriminate | reflexivity | reflexivity].
Defined.

(** X13: a [doLogin] that rejects has left the store as it was, unless the
    rejection is that of [set] itself. *)
Theorem doLogin_rejected_store {LoginModel S : Type}
    (this : GetDemos LoginModel string S) (payload : LoginModel)
    (w w' : World LoginModel string S) (e : JsValue string) :
  doLogin this payload w = (Rejected e, w') ->
  store w' = store w \/
  exists token,
    Storage.set (storage this) token (store w) = (Rejected e, store w').
Proof.
  rewrite doLogin_cases.
  pose proof (request_store this
                (AxiosRequestConfig.mk "/api/auth" POST (axiosConfigs this)
                   (Some payload)) w) as Hstore.
  destruct (request this _ w) as [[r | e1] w1]; cbn [snd] in Hstore.
  - destruct (truthy _); [| intros [=]].
    rewrite Hstore.
    destruct (Storage.set (storage this) _ (store w)) as [[[] | e2] s'] eqn:Hset;
      intros [= <- <-].
    right. eexists. exact Hset.
  - intros [= <- <-]. by left.
Qed.

Lemma doLogin_rejected_store_witness :
  let w : World string string (gmap string string) :=
    mkWorld {[GETDEMOS_TOKEN := "old"]} [] in
  store w = store w \/
  exists token,
    Storage.set (DefaultStorage (T := string)) token (store w)
    = (Rejected (JFailure (JString SERVER_INTERNAL_ERROR)), store w).
Proof.
  cbv zeta.
  refine (doLogin_rejected_store (LoginModel := string)
            (Sample.client 500 (ApiMessage.mk (Some true) 0 "" "tok123"))
            "user:secret" (mkWorld {[GETDEMOS_TOKEN := "old"]} [])
            (mkWorld {[GETDEMOS_TOKEN := "old"]} []) _ _).
  reflexivity.
Defined.

(** X14: login and request compose.  Over the default storage, once the
    server has accepted a login with the token [data], every request made in
    the world [doLogin] leaves goes out with [Authorization: Bearer data]. *)
Theorem doLogin_then_request_authenticated {LoginModel : Type}
    (this : GetDemos LoginModel string (gmap string string))
    (payload : LoginModel)
    (w : World LoginModel string (gmap string string))
    (response : AxiosResponse.t string) :
  storage this = DefaultStorage ->
  adapter this
    (prepared (store w !! GETDEMOS_TOKEN)
       (AxiosRequestConfig.mk "/api/auth" POST (axiosConfigs this) (Some payload)))
    = Fulfilled response ->
  AxiosResponse.status response <> 500%Z ->
  ApiMessage.ok (AxiosResponse.data response) = Some true ->
  exists w',
    doLogin this payload w = (Fulfilled response, w') /\
    forall configs,
      fst (requestFulfilled this configs w')
      = Fulfilled
          (setAuthorization
             ("Bearer " ++ ApiMessage.data (AxiosResponse.data response))
             configs).
Proof.
  destruct this as [dbg st headers dispatch]. cbn [storage adapter axiosConfigs].
  intros -> Hadapter Hstatus Hok.
  rewrite doLogin_cases, request_cases.
  cbn [storage adapter axiosConfigs Storage.get DefaultStorage].
  rewrite Hadapter, responseFulfilled_eq.
  apply Z.eqb_neq in Hstatus. rewrite Hstatus, Hok. cbn [truthy].
  rewrite Hok. cbn [truthy storage Storage.set DefaultStorage].
  rewrite !store_logged.
  eexists. split; [reflexivity |].
  intros configs.
  rewrite (requestFulfilled_token _ configs _
             (Some (ApiMessage.data (AxiosResponse.data response)))).
  - reflexivity.
  - cbn. by rewrite lookup_insert_eq.
Qed.

Lemma doLogin_then_request_authenticated_witness :
  let this : GetDemos string string (gmap string string) :=
    Sample.client 200 (ApiMessage.mk (Some true) 0 "" "tok123") in
  exists w',
    doLogin this "user:secret" Sample.emptyWorld
    = (Fulfilled (AxiosResponse.mk 200%Z ""
                    (ApiMessage.mk (Some true) 0 "" "tok123")), w') /\
    forall configs,
      fst (requestFulfilled this configs w')
      = Fulfilled (setAuthorization "Bearer tok123" configs).
Proof.
  cbv zeta.
  refine (doLogin_then_request_authenticated
            (Sample.client 200 (ApiMessage.mk (Some true) 0 "" "tok123"))
            "user:secret" Sample.emptyWorld
            (AxiosResponse.mk 200%Z "" (ApiMessage.mk (Some true) 0 "" "tok123"))
            _ _ _ _);
    [reflexivity | reflexivity | discriminate | reflexivity].
Defined.

(** ** Update check, continued *)

Section UpdateCheckFacts.
Context {D AppRelease S : Type}.
Variable version : AppRelease -> string.
Variable compareVersions : string -> string -> Settled AppRelease Z.
Variable this : GetDemos D AppRelease S.

Lemma checkUpdate_fetch_failed versionName versionCode w e w' :
  getAppLatestRelease this "[object Object]" w = (Rejected e, w') ->
  checkUpdate version compareVersions this versionName versionCode w
  = (Rejected e, w').
Proof. intros Hfetch. unfold checkUpdate, await. by rewrite Hfetch. Qed.

Lemma getAppLatestRelease_request w :
  getAppLatestRelease this "[object Object]" w
  = request this (latestReleaseRequest this) w.
Proof. reflexivity. Qed.

Lemma checkUpdate_world versionName versionCode w :
  snd (checkUpdate version compareVersions this versionName versionCode w)
  = snd (request this (latestReleaseRequest this) w).
Proof.
  destruct (getAppLatestRelease this "[object Object]" w)
    as [[latestRelease | e] w'] eqn:Hfetch.
  - rewrite (checkUpdate_fetched version compareVersions this _ _ _ _ _ Hfetch).
    rewrite <- getAppLatestRelease_request, Hfetch.
    by destruct (compareVersions _ versionName).
  - rewrite (checkUpdate_fetch_failed _ _ _ _ _ Hfetch).
    by rewrite <- getAppLatestRelease_request, Hfetch.
Qed.
End UpdateCheckFacts.

(** X15: [checkUpdate] fails in two ways only: the fetch of the latest
    release rejected, and [checkUpdate] rejects with the same value, or the
    fetch resolved and [compareVersions] threw that value. *)
Theorem checkUpdate_rejection_source {D AppRelease S : Type}
    (version : AppRelease -> string)
    (compareVersions : string -> string -> Settled AppRelease Z)
    (this : GetDemos D AppRelease S)
    (versionName : string) (versionCode : option string)
    (w w' : World D AppRelease S) (e : JsValue AppRelease) :
  checkUpdate version compareVersions this versionName versionCode w
  = (Rejected e, w') ->
  getAppLatestRelease this "[object Object]" w = (Rejected e, w') \/
  exists latestRelease,
    getAppLatestRelease this "[object Object]" w = (Fulfilled latestRelease, w') /\
    compareVersions
      (version (ApiMessage.data (AxiosResponse.data latestRelease))) versionName
    = Rejected e.
Proof.
  destruct (getAppLatestRelease this "[object Object]" w)
    as [[latestRelease | e1] w1] eqn:Hfetch.
  - rewrite (checkUpdate_fetched version compareVersions this _ _ _ _ _ Hfetch).
    destruct (compareVersions _ versionName) as [order | thrown] eqn:Horder;
      intros [= <- <-].
    right. by exists latestRelease.
  - rewrite (checkUpdate_fetch_failed version compareVersions this _ _ _ _ _ Hfetch).
    intros [= <- <-]. by left.
Qed.

Lemma checkUpdate_rejection_source_witness :
  let this : GetDemos unit Sample.AppRelease (gmap string string) :=
    Sample.client 500 (Sample.releaseBody "1.2.0") in
  getAppLatestRelease this "[object Object]" Sample.emptyWorld
  = (Rejected (JFailure (JString SERVER_INTERNAL_ERROR)), Sample.emptyWorld) \/
  exists latestRelease,
    getAppLatestRelease this "[object Object]" Sample.emptyWorld
    = (Fulfilled latestRelease, Sample.emptyWorld) /\
    strictCompare (T := Sample.AppRelease)
      (Sample.version (ApiMessage.data (AxiosResponse.data latestRelease)))
      "1.0.0"
    = Rejected (JFailure (JString SERVER_INTERNAL_ERROR)).
Proof.
  cbv zeta.
  refine (checkUpdate_rejection_source Sample.version strictCompare
            (Sample.client 500 (Sample.releaseBody "1.2.0")) "1.0.0" None
            Sample.emptyWorld Sample.emptyWorld _ _).
  reflexivity.
Defined.

(** X16: whenever [checkUpdate] resolves, [latest] is set, and [release] is
    present exactly when [latest] is [false]; it is then the release that was
    fetched, and [compareVersions] answered 1 for it. *)
Theorem checkUpdate_result_shape {D AppRelease S : Type}
    (version : AppRelease -> string)
    (compareVersions : string -> string -> Settled AppRelease Z)
    (this : GetDemos D AppRelease S)
    (versionName : string) (versionCode : option string)
    (w w' : World D AppRelease S) (result : CheckUpdateResult AppRelease) :
  checkUpdate version compareVersions this versionName versionCode w
  = (Fulfilled result, w') ->
  exists latestRelease,
    getAppLatestRelease this "[object Object]" w = (Fulfilled latestRelease, w') /\
    ((latest result = Some false /\
      release result = Some (ApiMessage.data (AxiosResponse.data latestRelease)) /\
      compareVersions
        (version (ApiMessage.data (AxiosResponse.data latestRelease)))
        versionName = Fulfilled 1%Z) \/
     (latest result = Some true /\ release result = None)).
Proof.
  destruct (getAppLatestRelease this "[object Object]" w)
    as [[latestRelease | e1] w1] eqn:Hfetch.
  - rewrite (checkUpdate_fetched version compareVersions this _ _ _ _ _ Hfetch).
    destruct (compareVersions _ versionName) as [order | thrown] eqn:Horder;
      intros [= <- <-].
    exists latestRelease. split; [done |].
    destruct (order =? 1)%Z eqn:Hone.
    + left. apply Z.eqb_eq in Hone. by subst order.
    + by right.
  - rewrite (checkUpdate_fetch_failed version compareVersions this _ _ _ _ _ Hfetch).
    intros [=].
Qed.

Lemma checkUpdate_result_shape_witness :
  let this : GetDemos unit Sample.AppRelease (gmap string string) :=
    Sample.client 200 (Sample.releaseBody "1.2.0") in
  let result :=
    mkCheckUpdateResult (Some false) (Some (Sample.mkRelease "1.2.0" "stable")) in
  exists latestRelease,
    getAppLatestRelease this "[object Object]" Sample.emptyWorld
    = (Fulfilled latestRelease, Sample.emptyWorld) /\
    ((latest result = Some false /\
      release result = Some (ApiMessage.data (AxiosResponse.data latestRelease)) /\
      strictCompare (T := Sample.AppRelease)
        (Sample.version (ApiMessage.data (AxiosResponse.data latestRelease)))
        "1.0.0" = Fulfilled 1%Z) \/
     (latest result = Some true /\ release result = None)).
Proof.
  cbv zeta.
  refine (checkUpdate_result_shape Sample.version strictCompare
            (Sample.client 200 (Sample.releaseBody "1.2.0")) "1.0.0" None
            Sample.emptyWorld Sample.emptyWorld _ _).
  reflexivity.
Defined.

(** X17: [checkUpdate] never writes the token store, and does to the world
    what its one request does. *)
Theorem checkUpdate_preserves_store {D AppRelease S : Type}
    (version : AppRelease -> string)
    (compareVersions : string -> string -> Settled AppRelease Z)
    (this : GetDemos D AppRelease S)
    (versionName : string) (versionCode : option string)
    (w : World D AppRelease S) :
  store (snd (checkUpdate version compareVersions this versionName versionCode w))
  = store w.
Proof. rewrite checkUpdate_world. apply request_store. Qed.

(** X18: [checkUpdate] asks the server one thing: a [GET] of
    [/api/apps/releases/latest[object Object]] with no body, the URL the
    literal [{}] it passes turns into.  A dispatch that answers this request
    the same way gives the same outcome, whatever it does elsewhere. *)
Theorem checkUpdate_single_request {D AppRelease S : Type}
    (version : AppRelease -> string)
    (compareVersions : string -> string -> Settled AppRelease Z)
    (this : GetDemos D AppRelease S)
    (adapter' : AxiosRequestConfig.t D ->
                Settled AppRelease (AxiosResponse.t AppRelease))
    (versionName : string) (versionCode : option string)
    (w : World D AppRelease S) :
  (forall token,
     adapter' (prepared token (latestReleaseRequest this))
     = adapter this (prepared token (latestReleaseRequest this))) ->
  checkUpdate version compareVersions (withAdapter this adapter')
    versionName versionCode w
  = checkUpdate version compareVersions this versionName versionCode w.
Proof.
  intros Hsame.
  assert (Hfetch : getAppLatestRelease (withAdapter this adapter')
                     "[object Object]" w
                   = getAppLatestRelease this "[object Object]" w).
  { rewrite !getAppLatestRelease_request, !request_cases.
    change (latestReleaseRequest (withAdapter this adapter'))
      with (latestReleaseRequest this).
    cbn [withAdapter storage adapter].
    destruct (Storage.get (storage this) (store w)) as [token | cause];
      [| reflexivity].
    rewrite Hsame. by destruct (adapter this _). }
  unfold checkUpdate, await. by rewrite Hfetch.
Qed.

Lemma checkUpdate_single_request_witness :
  let this : GetDemos unit Sample.AppRelease (gmap string string) :=
    Sample.client 200 (Sample.releaseBody "1.2.0") in
  let adapter' (configs : AxiosRequestConfig.t unit) :=
    if String.eqb (AxiosRequestConfig.url configs)
         "/api/apps/releases/latest[object Object]"
    then Fulfilled (AxiosResponse.mk 200%Z "" (Sample.releaseBody "1.2.0"))
    else Rejected JUndefined in
  checkUpdate Sample.version strictCompare (withAdapter this adapter')
    "1.0.0" None Sample.emptyWorld
  = checkUpdate Sample.version strictCompare this "1.0.0" None Sample.emptyWorld.
Proof.
  cbv zeta.
  apply (checkUpdate_single_request Sample.version strictCompare
           (Sample.client 200 (Sample.releaseBody "1.2.0"))).
  intros [token |]; reflexivity.
Defined.

(** ** The resource methods *)

(** X19: no resource method writes the token store; [doLogin] is the only
    method of the class that does. *)
Theorem resource_methods_preserve_store {D T S : Type}
    (this : GetDemos D T S) (text : string) (payload : D) (w : World D T S) :
  store (snd (getAllApps this text w)) = store w /\
  store (snd (getAppInfo this text w)) = store w /\
  store (snd (getAppLatestRelease this text w)) = store w /\
  store (snd (getAllAppReleases this text w)) = store w /\
  store (snd (releaseNewVersion this payload w)) = store w /\
  store (snd (getInvitation this text w)) = store w /\
  store (snd (confirmInvitation this payload w)) = store w /\
  store (snd (createApp this payload w)) = store w /\
  store (snd (getArticle this text w)) = store w /\
  store (snd (getArticles this text w)) = store w /\
  store (snd (createArticle this payload w)) = store w /\
  store (snd (updateArticle this text payload w)) = store w /\
  store (snd (removeArticleById this text w)) = store w /\
  store (snd (getTags this w)) = store w.
Proof.
  repeat split; try apply request_store.
  unfold confirmInvitation, await, client_post.
  pose proof (request_store this
                (AxiosRequestConfig.mk "/api/apps/invitation" POST
                   (axiosConfigs this) (Some payload)) w) as Hstore.
  by destruct (request this _ w) as [[response | e] w1].
Qed.
